(** * Energy projection simulator: demand projection and generation mix

    A shallow embedding of the calculation layer of [pythonProject/app.py]:
    the static tables, [project_demand] and [simulate_mix].

    Modelling choices.
    - Python numbers ([int] and [float] mixed freely by the source) are
      exact rationals [Q] in the first embedding; equality of numbers is
      [Qeq] ([==]).  It carries the statements that read the same on the
      binary64 numbers of the running program: the formulas of the code,
      order and sign, error behaviour.  Module [Binary64] is
      [simulate_mix] on binary64 numbers, with the rounding of the running
      program.
    - A Python [dict] is an insertion-ordered association list with unique
      keys: [d[k]] raises [KeyError] when [k] is absent, [d[k] = v]
      overwrites in place or appends, and iteration follows insertion
      order.
    - Exceptions are values of [exn], threaded by the [result] monad.
    - [pandas.date_range] is library code outside the repository; the part
      of it the source relies on is a parameter of [project_demand].
    - Module [Binary64Run] carries the projector and the run of the script
      on binary64 numbers.  Python's [**] on a float and an int is a
      parameter there, known through what CPython guarantees of it; where
      rounding or overflow decides a statement, the statement is made
      about these definitions. *)

From Corelib Require Import PrimFloat SpecFloat FloatOps FloatAxioms.
From Stdlib Require Import QArith Qminmax Qpower Qfield ZArith List String Bool Lia Lqa.
Import ListNotations.

Open Scope string_scope.
Open Scope Q_scope.

(** ** Exceptions and the error monad *)

Inductive exn : Type :=
| KeyError (key : string)
| ZeroDivisionError
| ValueError
| OverflowError.

Inductive result (A : Type) : Type :=
| Ok (a : A)
| Err (e : exn).

Arguments Ok {A} a.
Arguments Err {A} e.

Definition bind {A B : Type} (m : result A) (k : A -> result B) : result B :=
  match m with
  | Ok a => k a
  | Err e => Err e
  end.

Notation "x <- m ;; k" := (bind m (fun x => k))
  (at level 61, m at next level, right associativity).

Fixpoint mapM {A B : Type} (f : A -> result B) (l : list A) : result (list B) :=
  match l with
  | [] => Ok []
  | a :: l' => b <- f a ;; bs <- mapM f l' ;; Ok (b :: bs)
  end.

Fixpoint foldM {S A : Type} (f : S -> A -> result S) (l : list A) (s : S) : result S :=
  match l with
  | [] => Ok s
  | a :: l' => s' <- f s a ;; foldM f l' s'
  end.

(** ** Python built-ins used by the source *)

(** [a < b] on numbers. *)
Definition Qltb (a b : Q) : bool :=
  match a ?= b with
  | Lt => true
  | _ => false
  end.

(** [min(a, b)]: the first argument unless the second is strictly smaller. *)
Definition py_min (a b : Q) : Q := if Qltb b a then b else a.

(** [max(a, b)]: the first argument unless the second is strictly larger. *)
Definition py_max (a b : Q) : Q := if Qltb a b then b else a.

(** [sum(xs)]: left fold from the integer [0]. *)
Definition py_sum (xs : list Q) : Q := fold_left Qplus xs 0.

(** [a / b]: true division, raising on a zero divisor. *)
Definition truediv (a b : Q) : result Q :=
  if Qeq_bool b 0 then Err ZeroDivisionError else Ok (a / b).

(** [range(n)]: [0, 1, ..., n-1], empty when [n <= 0]. *)
Definition range (n : Z) : list Z := map Z.of_nat (seq 0 (Z.to_nat n)).

(** ** Dictionaries *)

Definition dict (V : Type) : Type := list (string * V).

Fixpoint dict_get {V : Type} (d : dict V) (k : string) : result V :=
  match d with
  | [] => Err (KeyError k)
  | (k', v) :: d' => if String.eqb k k' then Ok v else dict_get d' k
  end.

Fixpoint dict_set {V : Type} (d : dict V) (k : string) (v : V) : dict V :=
  match d with
  | [] => [(k, v)]
  | (k', v') :: d' =>
      if String.eqb k k' then (k', v) :: d' else (k', v') :: dict_set d' k v
  end.

Definition dict_keys {V : Type} (d : dict V) : list string := map fst d.

Definition dict_values {V : Type} (d : dict V) : list V := map snd d.

(** ** Static tables *)

Definition BASE_DEMANDA : dict Q :=
  [("Costa", 12000); ("Sierra", 7000); ("Selva", 4000)].

Definition CAPACITIES : dict (dict Q) :=
  [("Costa", [("hydro", 15000); ("solar", 8000); ("thermal", 12000)]);
   ("Sierra", [("hydro", 20000); ("solar", 3000); ("thermal", 8000)]);
   ("Selva", [("hydro", 10000); ("solar", 1000); ("thermal", 5000)])].

Definition EMISSION_FACTORS : dict Q :=
  [("hydro", 0.02); ("solar", 0.03); ("thermal", 0.8)].

Definition COSTS : dict Q :=
  [("hydro", 30); ("solar", 40); ("thermal", 90)].

(** The initial proportions, the local [mix] of [simulate_mix]. *)
Definition mix : dict Q :=
  [("hydro", 0.5); ("solar", 0.2); ("thermal", 0.3)].

(** ** The mix simulator *)

Record SimResult : Type := mkSim {
  gen : dict Q;
  deficit : Q;
  emissions : Q;
  cost : Q;
  cmp : Q
}.

Definition simulate_mix (region : string) (demanda factor : Q) : result SimResult :=
  caps <- dict_get CAPACITIES region ;;
  gen0 <- mapM (fun k => w <- dict_get mix k ;; Ok (k, demanda * w)) (dict_keys mix) ;;
  gen1 <- foldM (fun g k =>
                   x <- dict_get g k ;;
                   c <- dict_get caps k ;;
                   Ok (dict_set g k (py_min (x * factor) c)))
                ["hydro"; "solar"] gen0 ;;
  h <- dict_get gen1 "hydro" ;;
  s <- dict_get gen1 "solar" ;;
  ct <- dict_get caps "thermal" ;;
  let gen2 := dict_set gen1 "thermal" (py_min (demanda - (h + s)) ct) in
  let deficit := py_max 0 (demanda - py_sum (dict_values gen2)) in
  es <- mapM (fun t => x <- dict_get gen2 t ;; e <- dict_get EMISSION_FACTORS t ;; Ok (x * e))
             (dict_keys gen2) ;;
  let emissions := py_sum es in
  cs <- mapM (fun t => x <- dict_get gen2 t ;; c <- dict_get COSTS t ;; Ok (x * c))
             (dict_keys gen2) ;;
  let cost := py_sum cs in
  cmp <- (if Qltb 0 demanda then truediv cost demanda else Ok 0) ;;
  Ok (mkSim gen2 deficit emissions cost cmp).

(** ** The demand projector *)

(** The frame returned by [project_demand]: its two columns. *)
Record DataFrame : Type := mkFrame {
  Anio : list Z;
  Demanda_MWh : list Q
}.

(** [pd.DataFrame({...})] on two columns: columns of different lengths are
    refused. *)
Definition DataFrame_of (anio : list Z) (demanda : list Q) : result DataFrame :=
  if Nat.eqb (List.length anio) (List.length demanda)
  then Ok (mkFrame anio demanda)
  else Err ValueError.

(** [df.iterrows()]: the rows, in index order. *)
Definition iterrows (df : DataFrame) : list (Z * Q) :=
  combine (Anio df) (Demanda_MWh df).

Section DemandProjector.

(** [date_range_year n] stands for
    [pd.date_range("2025-01-01", periods=n, freq="Y").year]. *)
Variable date_range_year : Z -> result (list Z).

Definition project_demand (region : string) (years : Z) (growth_rate : Q)
  : result DataFrame :=
  base <- dict_get BASE_DEMANDA region ;;
  dates_year <- date_range_year years ;;
  let demand := map (fun i => base * (1 + growth_rate) ^ i) (range years) in
  DataFrame_of dates_year demand.

End DemandProjector.

(** What the source relies on from pandas: for a non-negative number of
    periods, the year ends 2025, 2026, ... one per period. *)
Definition year_end_labels (date_range_year : Z -> result (list Z)) : Prop :=
  forall n : Z, (0 <= n)%Z ->
    date_range_year n = Ok (map (fun i => (2025 + i)%Z) (range n)).

(** An instance, used to run [project_demand] on concrete inputs. *)
Definition year_ends_from_2025 (n : Z) : result (list Z) :=
  Ok (map (fun i => (2025 + i)%Z) (range n)).

(** ** The mix simulator on binary64 numbers

    The same function with Python's [float] as it is at run time, the
    IEEE 754 binary64 numbers of the kernel; an [int] of the tables is the
    float of the same value.  It is used to replay the concrete scenarios
    and check that rounding does not disturb them. *)

Module Binary64.

#[local] Set Warnings "-inexact-float".
#[local] Open Scope float_scope.

Definition py_min (a b : float) : float := if b <? a then b else a.

Definition py_max (a b : float) : float := if a <? b then b else a.

Definition py_sum (xs : list float) : float := fold_left PrimFloat.add xs 0.

Definition truediv (a b : float) : result float :=
  if b =? 0 then Err ZeroDivisionError else Ok (a / b).

Definition CAPACITIES : dict (dict float) :=
  [("Costa", [("hydro", 15000); ("solar", 8000); ("thermal", 12000)]);
   ("Sierra", [("hydro", 20000); ("solar", 3000); ("thermal", 8000)]);
   ("Selva", [("hydro", 10000); ("solar", 1000); ("thermal", 5000)])].

Definition EMISSION_FACTORS : dict float :=
  [("hydro", 0.02); ("solar", 0.03); ("thermal", 0.8)].

Definition COSTS : dict float :=
  [("hydro", 30); ("solar", 40); ("thermal", 90)].

Definition mix : dict float :=
  [("hydro", 0.5); ("solar", 0.2); ("thermal", 0.3)].

Record SimResult : Type := mkSim {
  gen : dict float;
  deficit : float;
  emissions : float;
  cost : float;
  cmp : float
}.

Definition simulate_mix (region : string) (demanda factor : float) : result SimResult :=
  caps <- dict_get CAPACITIES region ;;
  gen0 <- mapM (fun k => w <- dict_get mix k ;; Ok (k, demanda * w)) (dict_keys mix) ;;
  gen1 <- foldM (fun g k =>
                   x <- dict_get g k ;;
                   c <- dict_get caps k ;;
                   Ok (dict_set g k (py_min (x * factor) c)))
                ["hydro"; "solar"] gen0 ;;
  h <- dict_get gen1 "hydro" ;;
  s <- dict_get gen1 "solar" ;;
  ct <- dict_get caps "thermal" ;;
  let gen2 := dict_set gen1 "thermal" (py_min (demanda - (h + s)) ct) in
  let deficit := py_max 0 (demanda - py_sum (dict_values gen2)) in
  es <- mapM (fun t => x <- dict_get gen2 t ;; e <- dict_get EMISSION_FACTORS t ;; Ok (x * e))
             (dict_keys gen2) ;;
  let emissions := py_sum es in
  cs <- mapM (fun t => x <- dict_get gen2 t ;; c <- dict_get COSTS t ;; Ok (x * c))
             (dict_keys gen2) ;;
  let cost := py_sum cs in
  cmp <- (if 0 <? demanda then truediv cost demanda else Ok 0) ;;
  Ok (mkSim gen2 deficit emissions cost cmp).

End Binary64.

(** ** Vocabulary of the statements *)

Definition valid_region (region : string) : Prop :=
  In region ["Costa"; "Sierra"; "Selva"].

(** [capacity region tech] is [CAPACITIES[region][tech]]. *)
Definition capacity (region tech : string) : result Q :=
  caps <- dict_get CAPACITIES region ;; dict_get caps tech.

(** What [simulate_mix] evaluates to once the three capacities of the
    region are known (see [simulate_mix_valid]). *)
Definition mix_of_caps (ch cs ct demanda factor : Q) : SimResult :=
  let h := py_min (demanda * 0.5 * factor) ch in
  let s := py_min (demanda * 0.2 * factor) cs in
  let t := py_min (demanda - (h + s)) ct in
  let c := 0 + h * 30 + s * 40 + t * 90 in
  mkSim [("hydro", h); ("solar", s); ("thermal", t)]
        (py_max 0 (demanda - (0 + h + s + t)))
        (0 + h * 0.02 + s * 0.03 + t * 0.8)
        c
        (if Qltb 0 demanda then c / demanda else 0).

(** ** Climate scenarios *)

(** The factor table of [apply_climate_scenario]. *)
Definition climate_factors : dict Q :=
  [("Optimista", 1.1); ("Normal", 1.0); ("Crítico", 0.8)].

(** The projection frame once [apply_climate_scenario] has added its
    [climate_factor] column. *)
Record ClimateFrame : Type := mkClimateFrame {
  projection : DataFrame;
  climate_factor : list Q
}.

(** [df["climate_factor"] = factor] broadcasts the scalar over the rows of
    the frame. *)
Definition apply_climate_scenario (df : DataFrame) (scenario : string)
  : result ClimateFrame :=
  factor <- dict_get climate_factors scenario ;;
  Ok (mkClimateFrame df (repeat factor (List.length (iterrows df)))).

(** [df.iterrows()] on a frame with its climate column. *)
Definition climate_rows (df : ClimateFrame) : list (Z * Q * Q) :=
  combine (iterrows (projection df)) (climate_factor df).

(** ** The simulation run of the script *)

(** One entry of [results]. *)
Record ResultRow : Type := mkRow {
  row_Anio : Z;
  row_Demanda_MWh : Q;
  Hidro_MWh : Q;
  Solar_MWh : Q;
  Termica_MWh : Q;
  Deficit : Q;
  Emisiones_tCO2e : Q;
  Costo_USD : Q;
  CMP_USD_MWh : Q
}.

(** The body of the loop over [df_proj.iterrows()]. *)
Definition result_row (region : string) (row : Z * Q * Q) : result ResultRow :=
  let '(anio, demanda, factor) := row in
  sim <- simulate_mix region demanda factor ;;
  h <- dict_get (gen sim) "hydro" ;;
  s <- dict_get (gen sim) "solar" ;;
  t <- dict_get (gen sim) "thermal" ;;
  Ok (mkRow anio demanda h s t (deficit sim) (emissions sim) (cost sim) (cmp sim)).

Section Simulation.

Variable date_range_year : Z -> result (list Z).

(** [df_results] as the script computes it from the four selections. *)
Definition df_results (region scenario : string) (years : Z) (growth_rate : Q)
  : result (list ResultRow) :=
  df_proj <- project_demand date_range_year region years growth_rate ;;
  df_proj <- apply_climate_scenario df_proj scenario ;;
  mapM (result_row region) (climate_rows df_proj).

End Simulation.

(** ** The headline figures of the dashboard *)

Record Metrics : Type := mkMetrics {
  demanda_final : Q;
  costo_total : Q;
  emisiones_acumuladas : Q
}.

(** The three [metric] values: [df_results['Demanda_MWh'].iloc[-1]] and the
    sums of the cost and emission columns.  A frame built from an empty
    list of entries has no column, so that the first lookup raises. *)
Definition dashboard_metrics (rs : list ResultRow) : result Metrics :=
  match rs with
  | [] => Err (KeyError "Demanda_MWh")
  | r :: rs' =>
      Ok (mkMetrics (row_Demanda_MWh (last rs' r))
                    (py_sum (map Costo_USD rs))
                    (py_sum (map Emisiones_tCO2e rs)))
  end.

(** ** Vocabulary of the further statements *)

Definition valid_scenario (scenario : string) : Prop :=
  In scenario ["Optimista"; "Normal"; "Crítico"].

(** [simulates region d f res h s t]: the call [simulate_mix(region, d, f)]
    returns [res], whose [gen] holds [h], [s] and [t] for hydro, solar and
    thermal. *)
Definition simulates (region : string) (d f : Q) (res : SimResult) (h s t : Q) : Prop :=
  simulate_mix region d f = Ok res
  /\ dict_get (gen res) "hydro" = Ok h
  /\ dict_get (gen res) "solar" = Ok s
  /\ dict_get (gen res) "thermal" = Ok t.

(** What [result_row] evaluates to once the three capacities of the region
    are known (see [result_row_valid]). *)
Definition row_of_caps (ch cs ct : Q) (row : Z * Q * Q) : ResultRow :=
  let '(anio, demanda, factor) := row in
  let m := mix_of_caps ch cs ct demanda factor in
  let h := py_min (demanda * 0.5 * factor) ch in
  let s := py_min (demanda * 0.2 * factor) cs in
  mkRow anio demanda h s (py_min (demanda - (h + s)) ct)
        (deficit m) (emissions m) (cost m) (cmp m).

(** ** The projector and the run on binary64 numbers

    [project_demand], [apply_climate_scenario] and the loop of the script
    with Python's [float] as it is at run time.  The tables' [int] entries
    are the floats of the same value. *)

Module Binary64Run.

#[local] Set Warnings "-inexact-float".
#[local] Open Scope float_scope.

Definition BASE_DEMANDA : dict float :=
  [("Costa", 12000); ("Sierra", 7000); ("Selva", 4000)].

Record DataFrame : Type := mkFrame {
  Anio : list Z;
  Demanda_MWh : list float
}.

Definition DataFrame_of (anio : list Z) (demanda : list float) : result DataFrame :=
  if Nat.eqb (List.length anio) (List.length demanda)
  then Ok (mkFrame anio demanda)
  else Err ValueError.

Definition iterrows (df : DataFrame) : list (Z * float) :=
  combine (Anio df) (Demanda_MWh df).

Definition climate_factors : dict float :=
  [("Optimista", 1.1); ("Normal", 1.0); ("Crítico", 0.8)].

Record ClimateFrame : Type := mkClimateFrame {
  projection : DataFrame;
  climate_factor : list float
}.

Definition apply_climate_scenario (df : DataFrame) (scenario : string)
  : result ClimateFrame :=
  factor <- dict_get climate_factors scenario ;;
  Ok (mkClimateFrame df (repeat factor (List.length (iterrows df)))).

Definition climate_rows (df : ClimateFrame) : list (Z * float * float) :=
  combine (iterrows (projection df)) (climate_factor df).

Record ResultRow : Type := mkRow {
  row_Anio : Z;
  row_Demanda_MWh : float;
  Hidro_MWh : float;
  Solar_MWh : float;
  Termica_MWh : float;
  Deficit : float;
  Emisiones_tCO2e : float;
  Costo_USD : float;
  CMP_USD_MWh : float
}.

Definition result_row (region : string) (row : Z * float * float) : result ResultRow :=
  let '(anio, demanda, factor) := row in
  sim <- Binary64.simulate_mix region demanda factor ;;
  h <- dict_get (Binary64.gen sim) "hydro" ;;
  s <- dict_get (Binary64.gen sim) "solar" ;;
  t <- dict_get (Binary64.gen sim) "thermal" ;;
  Ok (mkRow anio demanda h s t (Binary64.deficit sim) (Binary64.emissions sim)
            (Binary64.cost sim) (Binary64.cmp sim)).

Section Run.

(** [float_pow x i] stands for [x ** i] on a float [x] and an int [i]: the
    [pow] of the C library behind CPython's checks, which raises
    [OverflowError] when the result is out of range. *)
Variable float_pow : float -> Z -> result float.

(** As in [project_demand] over the rationals. *)
Variable date_range_year : Z -> result (list Z).

Definition project_demand (region : string) (years : Z) (growth_rate : float)
  : result DataFrame :=
  base <- dict_get BASE_DEMANDA region ;;
  dates_year <- date_range_year years ;;
  demand <- mapM (fun i => p <- float_pow (1 + growth_rate) i ;; Ok (base * p))
                 (range years) ;;
  DataFrame_of dates_year demand.

Definition df_results (region scenario : string) (years : Z) (growth_rate : float)
  : result (list ResultRow) :=
  df_proj <- project_demand region years growth_rate ;;
  df_proj <- apply_climate_scenario df_proj scenario ;;
  mapM (result_row region) (climate_rows df_proj).

End Run.

(** What the statements rely on from [**]: CPython returns 1.0 for a zero
    exponent and for the base 1.0 before it calls [pow]; [pow(x, 1)] is [x];
    a finite base of magnitude at least 2^512 raised to an exponent of 2 or
    more is out of range, which CPython reports as [OverflowError]; and a
    base of magnitude at most 2 raised to an exponent from 0 to 1000 stays
    in range (an underflow is no error), so that a float is returned. *)
Definition python_float_pow (float_pow : float -> Z -> result float) : Prop :=
  (forall x, float_pow x 0%Z = Ok 1)
  /\ (forall i, float_pow 1 i = Ok 1)
  /\ (forall x, float_pow x 1%Z = Ok x)
  /\ (forall x i,
        (abs x <? infinity) = true -> (0x1p512 <=? abs x) = true -> (2 <= i)%Z ->
        float_pow x i = Err OverflowError)
  /\ (forall x i,
        (abs x <=? 2) = true -> (0 <= i <= 1000)%Z ->
        exists p, float_pow x i = Ok p).

(** An instance of these assumptions, used to run [project_demand] on
    concrete inputs.  Where the assumptions leave [**] open it multiplies
    repeatedly, which need not agree with the C library to the last bit. *)
Definition float_pow_by_product (x : float) (i : Z) : result float :=
  if (i =? 0)%Z then Ok 1
  else if (i =? 1)%Z then Ok x
  else if (abs x <? infinity) && (0x1p512 <=? abs x) && (2 <=? i)%Z
       then Err OverflowError
  else if x =? 1 then Ok 1
  else Ok (Pos.iter (PrimFloat.mul x) 1 (Z.to_pos i)).

(** [capacity region tech] is [CAPACITIES[region][tech]]. *)
Definition capacity (region tech : string) : result float :=
  caps <- dict_get Binary64.CAPACITIES region ;; dict_get caps tech.

(** What [Binary64.simulate_mix] evaluates to once the three capacities of
    the region are known (see [simulate_mix_binary64_valid]). *)
Definition mix_of_caps (ch cs ct demanda factor : float) : Binary64.SimResult :=
  let h := Binary64.py_min (demanda * 0.5 * factor) ch in
  let s := Binary64.py_min (demanda * 0.2 * factor) cs in
  let t := Binary64.py_min (demanda - (h + s)) ct in
  let c := 0 + h * 30 + s * 40 + t * 90 in
  Binary64.mkSim [("hydro", h); ("solar", s); ("thermal", t)]
                 (Binary64.py_max 0 (demanda - (0 + h + s + t)))
                 (0 + h * 0.02 + s * 0.03 + t * 0.8)
                 c
                 (if 0 <? demanda then c / demanda else 0).

End Binary64Run.

(** * Properties *)

(** ** Comparisons, [min] and [max] *)

Lemma Qltb_lt (a b : Q) : Qltb a b = true <-> a < b.
Proof.
  unfold Qltb. rewrite Qlt_alt.
  destruct (a ?= b); split; intro H; congruence.
Qed.

Lemma Qltb_ge (a b : Q) : Qltb a b = false <-> b <= a.
Proof.
  split; intro H.
  - apply Qnot_lt_le. intro L. apply Qltb_lt in L. congruence.
  - destruct (Qltb a b) eqn:E; [|reflexivity].
    apply Qltb_lt in E. exfalso. apply (Qlt_not_le _ _ E H).
Qed.

Lemma py_min_Qmin (a b : Q) : py_min a b = Qmin a b.
Proof.
  unfold py_min, Qltb, Qmin, GenericMinMax.gmin.
  rewrite <- (Qcompare_antisym a b).
  destruct (a ?= b); reflexivity.
Qed.

Lemma py_max_Qmax (a b : Q) : py_max a b = Qmax a b.
Proof.
  unfold py_max, Qltb, Qmax, GenericMinMax.gmax.
  destruct (a ?= b); reflexivity.
Qed.

Lemma py_min_cases (a b : Q) :
  (b < a /\ py_min a b = b) \/ (a <= b /\ py_min a b = a).
Proof.
  unfold py_min. destruct (Qltb b a) eqn:E.
  - left. split; [now apply Qltb_lt | reflexivity].
  - right. split; [now apply Qltb_ge | reflexivity].
Qed.

Lemma py_max_cases (a b : Q) :
  (a < b /\ py_max a b = b) \/ (b <= a /\ py_max a b = a).
Proof.
  unfold py_max. destruct (Qltb a b) eqn:E.
  - left. split; [now apply Qltb_lt | reflexivity].
  - right. split; [now apply Qltb_ge | reflexivity].
Qed.

(** ** [simulate_mix] on a valid region *)

Lemma truediv_pos (a b : Q) : 0 < b -> truediv a b = Ok (a / b).
Proof.
  intro H. unfold truediv.
  destruct (Qeq_bool b 0) eqn:E; [|reflexivity].
  apply Qeq_bool_eq in E. rewrite E in H. discriminate H.
Qed.

Lemma simulate_mix_valid (region : string) (d f : Q) :
  valid_region region ->
  exists ch cs ct,
    dict_get CAPACITIES region
      = Ok [("hydro", ch); ("solar", cs); ("thermal", ct)]
    /\ 0 <= ch /\ 0 <= cs /\ 0 <= ct
    /\ simulate_mix region d f = Ok (mix_of_caps ch cs ct d f).
Proof.
  intros [<- | [<- | [<- | []]]];
    (do 3 eexists; split; [reflexivity|];
     repeat (split; [discriminate|]);
     unfold simulate_mix, mix_of_caps;
     cbn -[Qmult Qplus Qminus Qdiv py_min py_max Qltb truediv Qopp];
     destruct (Qltb 0 d) eqn:E;
     [ apply Qltb_lt in E; rewrite (truediv_pos _ _ E) | ]; reflexivity).
Qed.

(** ** Renewable generation *)

Lemma py_min_bounds (x c : Q) :
  0 <= x -> 0 <= c -> 0 <= py_min x c /\ py_min x c <= c.
Proof.
  intros Hx Hc.
  destruct (py_min_cases x c) as [[Hlt ->] | [Hle ->]]; split;
    try assumption; apply Qle_refl.
Qed.

Lemma share_times_factor_nonneg (d w f : Q) :
  0 <= d -> 0 <= w -> 0 < f -> 0 <= d * w * f.
Proof.
  intros Hd Hw Hf.
  apply Qmult_le_0_compat; [apply Qmult_le_0_compat; assumption|].
  now apply Qlt_le_weak.
Qed.

(** C2: on a valid region, with demand >= 0 and climate factor > 0,
    [simulate_mix] returns a result whose hydro and solar generation are
    each [min (demand * share * factor) capacity] for the share of [mix] and
    the capacity of [CAPACITIES], hence lie between 0 and that capacity. *)
Theorem simulate_mix_renewables_clamped (region : string) (d f : Q) :
  valid_region region -> 0 <= d -> 0 < f ->
  exists caps res,
    dict_get CAPACITIES region = Ok caps
    /\ simulate_mix region d f = Ok res
    /\ forall tech, In tech ["hydro"; "solar"] ->
       exists w c g,
         dict_get mix tech = Ok w
         /\ dict_get caps tech = Ok c
         /\ dict_get (gen res) tech = Ok g
         /\ g = Qmin (d * w * f) c
         /\ 0 <= g /\ g <= c.
Proof.
  intros Hr Hd Hf.
  destruct (simulate_mix_valid region d f Hr)
    as (ch & cs & ct & Hcaps & Hch & Hcs & _ & Hsim).
  exists [("hydro", ch); ("solar", cs); ("thermal", ct)], (mix_of_caps ch cs ct d f).
  split; [exact Hcaps|]. split; [exact Hsim|].
  intros tech [<- | [<- | []]].
  - exists 0.5, ch, (py_min (d * 0.5 * f) ch).
    repeat (split; [reflexivity|]).
    split; [apply py_min_Qmin|].
    apply py_min_bounds; [|exact Hch].
    apply share_times_factor_nonneg; [exact Hd | discriminate | exact Hf].
  - exists 0.2, cs, (py_min (d * 0.2 * f) cs).
    repeat (split; [reflexivity|]).
    split; [apply py_min_Qmin|].
    apply py_min_bounds; [|exact Hcs].
    apply share_times_factor_nonneg; [exact Hd | discriminate | exact Hf].
Qed.

Lemma simulate_mix_renewables_clamped_selva :
  valid_region "Selva" /\ 0 <= 4000 /\ 0 < 0.8
  /\ exists caps res,
       dict_get CAPACITIES "Selva" = Ok caps
       /\ simulate_mix "Selva" 4000 0.8 = Ok res
       /\ forall tech, In tech ["hydro"; "solar"] ->
          exists w c g,
            dict_get mix tech = Ok w
            /\ dict_get caps tech = Ok c
            /\ dict_get (gen res) tech = Ok g
            /\ g = Qmin (4000 * w * 0.8) c
            /\ 0 <= g /\ g <= c.
Proof.
  assert (Hr : valid_region "Selva") by (unfold valid_region; simpl; tauto).
  assert (Hd : 0 <= 4000) by discriminate.
  assert (Hf : 0 < 0.8) by reflexivity.
  repeat (split; [assumption|]).
  exact (simulate_mix_renewables_clamped "Selva" 4000 0.8 Hr Hd Hf).
Defined.

(** ** Thermal generation *)

(** C3: there are valid inputs (here region Costa at its base demand 12000
    under a climate factor 1.5 > 1, where neither renewable capacity
    binds) for which the thermal generation returned by [simulate_mix],
    computed as [min (demand - (hydro + solar)) capacity] with no lower
    clamp, is strictly negative: -600, in exact arithmetic and on binary64
    numbers alike. *)
Theorem simulate_mix_thermal_can_be_negative :
  (exists region d f res h s t ct,
     valid_region region /\ 0 <= d /\ 0 < f /\ 1 < f
     /\ simulate_mix region d f = Ok res
     /\ dict_get (gen res) "hydro" = Ok h
     /\ dict_get (gen res) "solar" = Ok s
     /\ dict_get (gen res) "thermal" = Ok t
     /\ capacity region "thermal" = Ok ct
     /\ t = Qmin (d - (h + s)) ct
     /\ t < 0)
  /\ (exists res,
        Binary64.simulate_mix "Costa" 12000%float 1.5%float = Ok res
        /\ dict_get (Binary64.gen res) "thermal" = Ok (-600)%float).
Proof.
  split.
  - exists "Costa", 12000, 1.5.
    destruct (simulate_mix_valid "Costa" 12000 1.5)
      as (ch & cs & ct & Hc & _ & _ & _ & Hs).
    { unfold valid_region; simpl; tauto. }
    injection Hc as <- <- <-.
    eexists; do 4 eexists.
    split; [unfold valid_region; simpl; tauto|].
    split; [discriminate|].
    split; [reflexivity|]. split; [reflexivity|].
    split; [exact Hs|].
    do 4 (split; [reflexivity|]).
    split; [apply py_min_Qmin | reflexivity].
  - eexists. split; [vm_compute; reflexivity | reflexivity].
Qed.

(** ** Deficit *)

(** C4: on a valid region, with demand >= 0 and climate factor > 0, the
    deficit returned by [simulate_mix] is
    [max 0 (demand - (hydro + solar + thermal))] over the returned
    generation, and is therefore >= 0. *)
Theorem simulate_mix_deficit (region : string) (d f : Q) :
  valid_region region -> 0 <= d -> 0 < f ->
  exists res h s t,
    simulate_mix region d f = Ok res
    /\ dict_get (gen res) "hydro" = Ok h
    /\ dict_get (gen res) "solar" = Ok s
    /\ dict_get (gen res) "thermal" = Ok t
    /\ deficit res == Qmax 0 (d - (h + s + t))
    /\ 0 <= deficit res.
Proof.
  intros Hr _ _.
  destruct (simulate_mix_valid region d f Hr) as (ch & cs & ct & _ & _ & _ & _ & Hs).
  eexists; do 3 eexists.
  split; [exact Hs|].
  do 3 (split; [reflexivity|]).
  cbn [deficit mix_of_caps].
  rewrite py_max_Qmax. split.
  - apply Q.max_compat; [reflexivity | ring].
  - apply Q.le_max_l.
Qed.

Lemma simulate_mix_deficit_sierra :
  valid_region "Sierra" /\ 0 <= 30000 /\ 0 < 0.8
  /\ exists res h s t,
       simulate_mix "Sierra" 30000 0.8 = Ok res
       /\ dict_get (gen res) "hydro" = Ok h
       /\ dict_get (gen res) "solar" = Ok s
       /\ dict_get (gen res) "thermal" = Ok t
       /\ deficit res == Qmax 0 (30000 - (h + s + t))
       /\ 0 <= deficit res.
Proof.
  assert (Hr : valid_region "Sierra") by (unfold valid_region; simpl; tauto).
  assert (Hd : 0 <= 30000) by discriminate.
  assert (Hf : 0 < 0.8) by reflexivity.
  repeat (split; [assumption|]).
  exact (simulate_mix_deficit "Sierra" 30000 0.8 Hr Hd Hf).
Defined.

(** ** Marginal cost *)

(** C5: on a valid region with climate factor > 0, [simulate_mix] returns
    a result (the division never raises): its marginal cost is
    [cost / demand] when demand > 0 and 0 when demand = 0, and when
    demand = 0 hydro, solar and thermal generation are all 0. *)
Theorem simulate_mix_marginal_cost (region : string) (d f : Q) :
  valid_region region -> 0 < f ->
  exists res h s t,
    simulate_mix region d f = Ok res
    /\ dict_get (gen res) "hydro" = Ok h
    /\ dict_get (gen res) "solar" = Ok s
    /\ dict_get (gen res) "thermal" = Ok t
    /\ (0 < d -> cmp res = cost res / d)
    /\ (d == 0 -> cmp res = 0 /\ h == 0 /\ s == 0 /\ t == 0).
Proof.
  intros Hr _.
  destruct (simulate_mix_valid region d f Hr)
    as (ch & cs & ct & _ & Hch & Hcs & Hct & Hs).
  eexists; do 3 eexists.
  split; [exact Hs|].
  do 3 (split; [reflexivity|]).
  cbn [cmp cost mix_of_caps]. split.
  - intro Hd. apply Qltb_lt in Hd. rewrite Hd. reflexivity.
  - intro Hd.
    assert (E : Qltb 0 d = false) by (apply Qltb_ge; rewrite Hd; apply Qle_refl).
    rewrite E. split; [reflexivity|].
    assert (Hh : py_min (d * 0.5 * f) ch == 0).
    { destruct (py_min_cases (d * 0.5 * f) ch) as [[L ->] | [_ ->]].
      - rewrite Hd in L. lra.
      - rewrite Hd. ring. }
    assert (Hsol : py_min (d * 0.2 * f) cs == 0).
    { destruct (py_min_cases (d * 0.2 * f) cs) as [[L ->] | [_ ->]].
      - rewrite Hd in L. lra.
      - rewrite Hd. ring. }
    split; [exact Hh|]. split; [exact Hsol|].
    set (h := py_min (d * 0.5 * f) ch) in *.
    set (s := py_min (d * 0.2 * f) cs) in *.
    destruct (py_min_cases (d - (h + s)) ct) as [[L ->] | [_ ->]]; lra.
Qed.

Lemma simulate_mix_marginal_cost_zero_demand :
  valid_region "Costa" /\ 0 < 1.1
  /\ exists res h s t,
       simulate_mix "Costa" 0 1.1 = Ok res
       /\ dict_get (gen res) "hydro" = Ok h
       /\ dict_get (gen res) "solar" = Ok s
       /\ dict_get (gen res) "thermal" = Ok t
       /\ (0 < 0 -> cmp res = cost res / 0)
       /\ (0 == 0 -> cmp res = 0 /\ h == 0 /\ s == 0 /\ t == 0).
Proof.
  assert (Hr : valid_region "Costa") by (unfold valid_region; simpl; tauto).
  assert (Hf : 0 < 1.1) by reflexivity.
  repeat (split; [assumption|]).
  exact (simulate_mix_marginal_cost "Costa" 0 1.1 Hr Hf).
Defined.

(** ** Input handling of [simulate_mix] *)

Lemma dict_get_CAPACITIES_unknown (region : string) :
  ~ valid_region region -> dict_get CAPACITIES region = Err (KeyError region).
Proof.
  intro H. unfold valid_region in H. simpl in H.
  unfold CAPACITIES. cbn [dict_get].
  destruct (String.eqb_spec region "Costa") as [-> | _]; [tauto|].
  destruct (String.eqb_spec region "Sierra") as [-> | _]; [tauto|].
  destruct (String.eqb_spec region "Selva") as [-> | _]; [tauto|].
  reflexivity.
Qed.

(** C6, as the code has it: [simulate_mix] validates neither the demand
    nor the climate factor.  On a region of {Costa, Sierra, Selva} it
    returns a simulation result for every demand and every factor,
    negative or zero ones included; on any other region it fails with the
    [KeyError] of the capacity lookup, naming the region, and produces no
    result. *)
Theorem simulate_mix_no_validation (region : string) (d f : Q) :
  (valid_region region -> exists res, simulate_mix region d f = Ok res)
  /\ (~ valid_region region -> simulate_mix region d f = Err (KeyError region)).
Proof.
  split; intro Hr.
  - destruct (simulate_mix_valid region d f Hr) as (ch & cs & ct & _ & _ & _ & _ & Hs).
    eexists. exact Hs.
  - unfold simulate_mix.
    rewrite (dict_get_CAPACITIES_unknown region Hr). reflexivity.
Qed.

Lemma simulate_mix_no_validation_lima :
  ~ valid_region "Lima"
  /\ (valid_region "Lima" -> exists res, simulate_mix "Lima" 1000 1 = Ok res)
  /\ (~ valid_region "Lima" -> simulate_mix "Lima" 1000 1 = Err (KeyError "Lima")).
Proof.
  split.
  - unfold valid_region. simpl. intros [H | [H | [H | []]]]; discriminate H.
  - exact (simulate_mix_no_validation "Lima" 1000 1).
Defined.

(** C6 fails as stated: a negative demand and a non-positive climate factor
    are both accepted, and a result is returned (in exact arithmetic and on
    binary64 numbers alike). *)
Lemma simulate_mix_accepts_invalid_parameters :
  -1000 < 0 /\ 0 <= 0
  /\ (exists res,
        simulate_mix "Costa" (-1000) 1 = Ok res
        /\ exists h s t,
             gen res = [("hydro", h); ("solar", s); ("thermal", t)]
             /\ h == -500 /\ s == -200 /\ t == -300
             /\ deficit res == 0 /\ cost res == -50000 /\ cmp res == 0)
  /\ (exists res,
        simulate_mix "Costa" 12000 0 = Ok res
        /\ exists h s t,
             gen res = [("hydro", h); ("solar", s); ("thermal", t)]
             /\ h == 0 /\ s == 0 /\ t == 12000
             /\ deficit res == 0 /\ cost res == 1080000 /\ cmp res == 90)
  /\ Binary64.simulate_mix "Costa" (-1000)%float 1%float
     = Ok (Binary64.mkSim
             [("hydro", (-500)%float); ("solar", (-200)%float);
              ("thermal", (-300)%float)]
             0%float (-256)%float (-50000)%float 0%float).
Proof.
  split; [reflexivity|]. split; [discriminate|].
  split; [|split]; [| |vm_compute; reflexivity];
    eexists; (split; [vm_compute; reflexivity|]);
    do 3 eexists; (split; [reflexivity|]);
    repeat split.
Qed.

(** ** The Costa scenario *)

(** C9: for region Costa, demand 12000 and climate factor 1.0,
    [simulate_mix] returns generation hydro 6000, solar 2400, thermal 3600,
    deficit 0, emissions 3072, cost 600000 and marginal cost 50, in exact
    arithmetic and, bit for bit, on binary64 numbers; the tables give Costa
    a base demand of 12000 and capacities 15000/8000/12000, emission
    factors 0.02/0.03/0.8 and unit costs 30/40/90. *)
Theorem simulate_mix_costa_normal :
  (exists res h s t,
     simulate_mix "Costa" 12000 1.0 = Ok res
     /\ gen res = [("hydro", h); ("solar", s); ("thermal", t)]
     /\ h == 6000 /\ s == 2400 /\ t == 3600
     /\ deficit res == 0
     /\ emissions res == 3072
     /\ cost res == 600000
     /\ cmp res == 50.0)
  /\ Binary64.simulate_mix "Costa" 12000%float 1.0%float
     = Ok (Binary64.mkSim
             [("hydro", 6000%float); ("solar", 2400%float);
              ("thermal", 3600%float)]
             0%float 3072%float 600000%float 50.0%float)
  /\ dict_get BASE_DEMANDA "Costa" = Ok 12000
  /\ dict_get CAPACITIES "Costa"
       = Ok [("hydro", 15000); ("solar", 8000); ("thermal", 12000)]
  /\ EMISSION_FACTORS = [("hydro", 0.02); ("solar", 0.03); ("thermal", 0.8)]
  /\ COSTS = [("hydro", 30); ("solar", 40); ("thermal", 90)].
Proof.
  split; [|split].
  - eexists. do 3 eexists.
    split; [vm_compute; reflexivity|].
    split; [reflexivity|].
    repeat split.
  - vm_compute. reflexivity.
  - repeat split.
Qed.

(** ** Lists built over [range] *)

Lemma range_length (n : Z) : List.length (range n) = Z.to_nat n.
Proof. unfold range. now rewrite length_map, length_seq. Qed.

Lemma range_nth_error (n i : Z) :
  (0 <= i < n)%Z -> nth_error (range n) (Z.to_nat i) = Some i.
Proof.
  intro H. unfold range.
  rewrite nth_error_map, nth_error_seq.
  destruct (Nat.ltb_spec (Z.to_nat i) (Z.to_nat n)) as [_ | L]; [|lia].
  cbn. f_equal. lia.
Qed.

Lemma range_nonpos (n : Z) : (n <= 0)%Z -> range n = [].
Proof.
  intro H. unfold range.
  replace (Z.to_nat n) with 0%nat by lia. reflexivity.
Qed.

(** ** [project_demand] on a valid region *)

Lemma year_ends_from_2025_labels : year_end_labels year_ends_from_2025.
Proof. intros n _. reflexivity. Qed.

Lemma base_demand_valid (region : string) :
  valid_region region ->
  exists base, dict_get BASE_DEMANDA region = Ok base /\ 0 < base.
Proof.
  intros [<- | [<- | [<- | []]]]; eexists; split; reflexivity.
Qed.

Section DemandProjectorFacts.

Variable date_range_year : Z -> result (list Z).
Hypothesis date_range_year_labels : year_end_labels date_range_year.

Lemma project_demand_valid (region : string) (years : Z) (g base : Q) :
  dict_get BASE_DEMANDA region = Ok base -> (0 <= years)%Z ->
  project_demand date_range_year region years g
  = Ok (mkFrame (map (fun i => (2025 + i)%Z) (range years))
                (map (fun i => base * (1 + g) ^ i) (range years))).
Proof.
  intros Hb Hy. unfold project_demand.
  rewrite Hb, (date_range_year_labels years Hy). cbn [bind].
  unfold DataFrame_of. rewrite !length_map, Nat.eqb_refl. reflexivity.
Qed.

End DemandProjectorFacts.

(** ** Projected demand *)

(** C7, as the code has it: [project_demand] does not check the horizon.
    With a valid region and a horizon <= 0 the demand column is empty and
    the outcome is that of building the frame from the year labels pandas
    gives for that many periods; with a horizon of 0 this is the empty
    frame, returned without any error. *)
Theorem project_demand_no_validation
    (date_range_year : Z -> result (list Z)) (region : string) (years : Z) (g : Q) :
  valid_region region -> (years <= 0)%Z ->
  project_demand date_range_year region years g
    = (dates_year <- date_range_year years ;; DataFrame_of dates_year [])
  /\ (year_end_labels date_range_year -> years = 0%Z ->
      project_demand date_range_year region years g = Ok (mkFrame [] [])).
Proof.
  intros Hr Hy.
  destruct (base_demand_valid region Hr) as (base & Hb & _).
  split.
  - unfold project_demand. rewrite Hb, (range_nonpos years Hy). reflexivity.
  - intros Hdr ->.
    rewrite (project_demand_valid _ Hdr _ _ _ _ Hb); [reflexivity | lia].
Qed.

Lemma project_demand_no_validation_sierra :
  valid_region "Sierra" /\ (0 <= 0)%Z
  /\ project_demand year_ends_from_2025 "Sierra" 0 0.04
       = (dates_year <- year_ends_from_2025 0 ;; DataFrame_of dates_year [])
  /\ (year_end_labels year_ends_from_2025 -> 0%Z = 0%Z ->
      project_demand year_ends_from_2025 "Sierra" 0 0.04 = Ok (mkFrame [] [])).
Proof.
  assert (Hr : valid_region "Sierra") by (unfold valid_region; simpl; tauto).
  assert (Hy : (0 <= 0)%Z) by lia.
  repeat (split; [assumption|]).
  exact (project_demand_no_validation year_ends_from_2025 "Sierra" 0 0.04 Hr Hy).
Defined.

(** C7 fails as stated: a horizon of 0 is not rejected; the empty frame is
    returned. *)
Lemma project_demand_accepts_zero_horizon :
  (0 <= 0)%Z
  /\ project_demand year_ends_from_2025 "Costa" 0 0.04 = Ok (mkFrame [] [])
  /\ iterrows (mkFrame [] []) = [].
Proof. repeat split. lia. Qed.

(** * Further properties of the code *)

(** ** The closed form of a simulation *)

Lemma simulates_valid (region : string) (d f : Q) :
  valid_region region ->
  exists ch cs ct,
    capacity region "hydro" = Ok ch
    /\ capacity region "solar" = Ok cs
    /\ capacity region "thermal" = Ok ct
    /\ 0 <= ch /\ 0 <= cs /\ 0 <= ct
    /\ simulates region d f (mix_of_caps ch cs ct d f)
         (py_min (d * 0.5 * f) ch)
         (py_min (d * 0.2 * f) cs)
         (py_min (d - (py_min (d * 0.5 * f) ch + py_min (d * 0.2 * f) cs)) ct).
Proof.
  intro Hr.
  destruct (simulate_mix_valid region d f Hr)
    as (ch & cs & ct & Hc & Hch & Hcs & Hct & Hs).
  exists ch, cs, ct. unfold capacity. rewrite Hc.
  do 6 (split; [reflexivity || assumption|]).
  split; [exact Hs|]. repeat split.
Qed.

Lemma py_min_le_r (a b : Q) : py_min a b <= b.
Proof. destruct (py_min_cases a b) as [[L ->] | [L ->]]; lra. Qed.

Lemma py_min_mono_l (a a' b : Q) : a <= a' -> py_min a b <= py_min a' b.
Proof.
  intro H.
  destruct (py_min_cases a b) as [[L ->] | [L ->]];
    destruct (py_min_cases a' b) as [[L' ->] | [L' ->]]; lra.
Qed.

Lemma demand_times_factor_le (d f k : Q) : 0 <= d -> f <= k -> d * f <= d * k.
Proof.
  intros Hd Hf.
  assert (H : 0 <= d * (k - f)) by (apply Qmult_le_0_compat; lra).
  lra.
Qed.

(** ** Climate scenarios *)

Lemma climate_factor_valid (scenario : string) :
  valid_scenario scenario ->
  exists factor,
    dict_get climate_factors scenario = Ok factor
    /\ 0.8 <= factor /\ factor <= 1.1.
Proof.
  intros [<- | [<- | [<- | []]]]; eexists;
    (split; [reflexivity|]); split; discriminate.
Qed.

Lemma climate_factor_unknown (scenario : string) :
  ~ valid_scenario scenario ->
  dict_get climate_factors scenario = Err (KeyError scenario).
Proof.
  intro H. unfold valid_scenario in H. simpl in H.
  unfold climate_factors. cbn [dict_get].
  destruct (String.eqb_spec scenario "Optimista") as [-> | _]; [tauto|].
  destruct (String.eqb_spec scenario "Normal") as [-> | _]; [tauto|].
  destruct (String.eqb_spec scenario "Crítico") as [-> | _]; [tauto|].
  reflexivity.
Qed.

Lemma combine_repeat {A B : Type} (l : list A) (b : B) :
  combine l (repeat b (List.length l)) = map (fun a => (a, b)) l.
Proof. induction l as [| a l IH]; cbn; [reflexivity | now rewrite IH]. Qed.

(** X9: [apply_climate_scenario] leaves the projection as it is and pairs
    every one of its rows with one and the same factor, which for the
    scenarios Optimista, Normal and Critico lies between 0.8 and 1.1; any
    other scenario name fails with the [KeyError] of the factor lookup. *)
Theorem apply_climate_scenario_rows (df : DataFrame) (scenario : string) :
  (valid_scenario scenario ->
   exists factor cf,
     apply_climate_scenario df scenario = Ok cf
     /\ projection cf = df
     /\ climate_rows cf = map (fun row => (row, factor)) (iterrows df)
     /\ 0.8 <= factor /\ factor <= 1.1)
  /\ (~ valid_scenario scenario ->
      apply_climate_scenario df scenario = Err (KeyError scenario)).
Proof.
  split; intro Hs.
  - destruct (climate_factor_valid scenario Hs) as (factor & Hf & Hlo & Hhi).
    exists factor. eexists.
    unfold apply_climate_scenario. rewrite Hf. cbn [bind].
    split; [reflexivity|]. split; [reflexivity|].
    split; [|split; assumption].
    unfold climate_rows. cbn [projection climate_factor].
    apply combine_repeat.
  - unfold apply_climate_scenario.
    rewrite (climate_factor_unknown scenario Hs). reflexivity.
Qed.

Lemma apply_climate_scenario_rows_critico :
  valid_scenario "Crítico"
  /\ (valid_scenario "Crítico" ->
      exists factor cf,
        apply_climate_scenario (mkFrame [2025; 2026]%Z [4000; 4160]) "Crítico" = Ok cf
        /\ projection cf = mkFrame [2025; 2026]%Z [4000; 4160]
        /\ climate_rows cf
           = map (fun row => (row, factor))
                 (iterrows (mkFrame [2025; 2026]%Z [4000; 4160]))
        /\ 0.8 <= factor /\ factor <= 1.1)
  /\ (~ valid_scenario "Crítico" ->
      apply_climate_scenario (mkFrame [2025; 2026]%Z [4000; 4160]) "Crítico"
      = Err (KeyError "Crítico")).
Proof.
  split; [unfold valid_scenario; simpl; tauto|].
  exact (apply_climate_scenario_rows (mkFrame [2025; 2026]%Z [4000; 4160]) "Crítico").
Defined.

(** ** The simulation run *)

Lemma mapM_Ok_map {A B : Type} (f : A -> result B) (g : A -> B) (l : list A) :
  (forall a, In a l -> f a = Ok (g a)) -> mapM f l = Ok (map g l).
Proof.
  induction l as [| a l IH]; intro H; cbn; [reflexivity|].
  rewrite (H a (or_introl eq_refl)). cbn.
  rewrite IH by (intros b Hb; apply H; right; exact Hb).
  reflexivity.
Qed.

Lemma combine_map_map {A B C : Type} (f : A -> B) (g : A -> C) (l : list A) :
  combine (map f l) (map g l) = map (fun a => (f a, g a)) l.
Proof. induction l as [| a l IH]; cbn; [reflexivity | now rewrite IH]. Qed.

Lemma result_row_valid (region : string) :
  valid_region region ->
  exists ch cs ct,
    capacity region "hydro" = Ok ch
    /\ capacity region "solar" = Ok cs
    /\ capacity region "thermal" = Ok ct
    /\ 0 <= ch /\ 0 <= cs /\ 0 <= ct
    /\ (forall d f, simulate_mix region d f = Ok (mix_of_caps ch cs ct d f))
    /\ forall row, result_row region row = Ok (row_of_caps ch cs ct row).
Proof.
  intro Hr.
  destruct (simulate_mix_valid region 0 0 Hr)
    as (ch & cs & ct & Hc & Hch & Hcs & Hct & _).
  exists ch, cs, ct. unfold capacity. rewrite Hc.
  do 6 (split; [reflexivity || assumption|]).
  assert (Hsim : forall d f, simulate_mix region d f = Ok (mix_of_caps ch cs ct d f)).
  { intros d f.
    destruct (simulate_mix_valid region d f Hr)
      as (ch' & cs' & ct' & Hc' & _ & _ & _ & Hs).
    rewrite Hc in Hc'. injection Hc' as <- <- <-. exact Hs. }
  split; [exact Hsim|].
  intros [[y d] f]. unfold result_row. rewrite Hsim. reflexivity.
Qed.

Lemma df_results_valid
    (date_range_year : Z -> result (list Z))
    (region scenario : string) (years : Z) (g base factor : Q) :
  year_end_labels date_range_year ->
  valid_region region ->
  dict_get BASE_DEMANDA region = Ok base ->
  dict_get climate_factors scenario = Ok factor ->
  (0 <= years)%Z ->
  exists ch cs ct,
    capacity region "hydro" = Ok ch
    /\ capacity region "solar" = Ok cs
    /\ capacity region "thermal" = Ok ct
    /\ 0 <= ch /\ 0 <= cs /\ 0 <= ct
    /\ (forall d f, simulate_mix region d f = Ok (mix_of_caps ch cs ct d f))
    /\ df_results date_range_year region scenario years g
       = Ok (map (fun i => row_of_caps ch cs ct
                             ((2025 + i)%Z, base * (1 + g) ^ i, factor))
                 (range years)).
Proof.
  intros Hdr Hr Hb Hf Hy.
  destruct (result_row_valid region Hr)
    as (ch & cs & ct & Hh & Hs & Ht & Hch & Hcs & Hct & Hsim & Hrow).
  exists ch, cs, ct.
  do 7 (split; [assumption|]).
  unfold df_results.
  rewrite (project_demand_valid _ Hdr _ _ _ _ Hb Hy). cbn [bind].
  unfold apply_climate_scenario. rewrite Hf. cbn [bind].
  unfold climate_rows. cbn [projection climate_factor].
  rewrite combine_repeat.
  unfold iterrows. cbn [Anio Demanda_MWh].
  rewrite combine_map_map, map_map.
  rewrite (mapM_Ok_map _ (row_of_caps ch cs ct)) by (intros; apply Hrow).
  rewrite map_map. reflexivity.
Qed.

(** X16: with a horizon of 0 the run of the script returns no row, and the
    dashboard then fails on its first figure with the [KeyError] of the
    missing demand column. *)
Theorem dashboard_metrics_empty_run
    (date_range_year : Z -> result (list Z))
    (region scenario : string) (g : Q) :
  year_end_labels date_range_year ->
  valid_region region -> valid_scenario scenario ->
  df_results date_range_year region scenario 0 g = Ok []
  /\ dashboard_metrics [] = Err (KeyError "Demanda_MWh").
Proof.
  intros Hdr Hr Hs.
  destruct (base_demand_valid region Hr) as (base & Hb & _).
  destruct (climate_factor_valid scenario Hs) as (factor & Hf & _ & _).
  destruct (df_results_valid _ region scenario 0 g base factor Hdr Hr Hb Hf (Z.le_refl 0))
    as (ch & cs & ct & _ & _ & _ & _ & _ & _ & _ & Hrun).
  split; [exact Hrun | reflexivity].
Qed.

Lemma dashboard_metrics_empty_run_selva :
  year_end_labels year_ends_from_2025
  /\ valid_region "Selva" /\ valid_scenario "Normal"
  /\ df_results year_ends_from_2025 "Selva" "Normal" 0 0.04 = Ok []
  /\ dashboard_metrics [] = Err (KeyError "Demanda_MWh").
Proof.
  assert (Hr : valid_region "Selva") by (unfold valid_region; simpl; tauto).
  assert (Hs : valid_scenario "Normal") by (unfold valid_scenario; simpl; tauto).
  split; [exact year_ends_from_2025_labels|].
  repeat (split; [assumption|]).
  exact (dashboard_metrics_empty_run year_ends_from_2025 "Selva" "Normal" 0.04
           year_ends_from_2025_labels Hr Hs).
Defined.

(** * Properties on binary64 numbers *)

Section Binary64Facts.

#[local] Set Warnings "-inexact-float".
#[local] Open Scope float_scope.

(** ** The guard of the division *)

Lemma float_pos_nonzero (d : float) : (0 <? d) = true -> (d =? 0) = false.
Proof.
  intro H. rewrite FloatAxioms.ltb_spec in H. rewrite FloatAxioms.eqb_spec.
  change (Prim2SF 0) with (S754_zero false) in *.
  destruct (Prim2SF d) as [s | s | | s m e]; cbn in *; try congruence;
    destruct s; cbn in *; congruence.
Qed.

Lemma float_lt_le (a b : float) : (a <? b) = true -> (a <=? b) = true.
Proof.
  rewrite FloatAxioms.ltb_spec, FloatAxioms.leb_spec.
  unfold SFltb, SFleb.
  destruct (SFcompare (Prim2SF a) (Prim2SF b)) as [[| |] |]; congruence.
Qed.

Lemma py_max_zero_nonneg (x : float) : (0 <=? Binary64.py_max 0 x) = true.
Proof.
  unfold Binary64.py_max. destruct (0 <? x) eqn:E.
  - apply float_lt_le. exact E.
  - reflexivity.
Qed.

Lemma simulate_mix_binary64_valid (region : string) :
  valid_region region ->
  exists ch cs ct,
    dict_get Binary64.CAPACITIES region
      = Ok [("hydro", ch); ("solar", cs); ("thermal", ct)]
    /\ (ct <? ct) = false
    /\ forall d f,
         Binary64.simulate_mix region d f = Ok (Binary64Run.mix_of_caps ch cs ct d f).
Proof.
  intros [<- | [<- | [<- | []]]];
    (do 3 eexists; split; [reflexivity|]; split; [reflexivity|];
     intros d f;
     unfold Binary64.simulate_mix, Binary64Run.mix_of_caps;
     cbn -[PrimFloat.mul PrimFloat.add PrimFloat.sub PrimFloat.div PrimFloat.ltb
           Binary64.py_min Binary64.py_max Binary64.truediv];
     destruct (0 <? d) eqn:E;
     [ unfold Binary64.truediv; rewrite (float_pos_nonzero d E) | ]; reflexivity).
Qed.

(** ** Thermal generation below its capacity *)




(** ** Lists built by [mapM] *)

Lemma mapM_nth_error {A B : Type} (f : A -> result B) (l : list A) (l' : list B) :
  mapM f l = Ok l' ->
  List.length l' = List.length l
  /\ forall k a, nth_error l k = Some a ->
       exists b, f a = Ok b /\ nth_error l' k = Some b.
Proof.
  revert l'. induction l as [| a l IH]; intros l' H; cbn in H.
  - injection H as <-. split; [reflexivity|]. intros [| k] a H; discriminate H.
  - destruct (f a) as [b | e] eqn:Ea; cbn in H; [|discriminate H].
    destruct (mapM f l) as [bs | e] eqn:El; cbn in H; [|discriminate H].
    injection H as <-. destruct (IH bs eq_refl) as (Hlen & Hnth).
    split; [cbn; now rewrite Hlen|].
    intros [| k] a' Hk; cbn in Hk.
    + injection Hk as <-. exists b. split; [exact Ea | reflexivity].
    + apply Hnth. exact Hk.
Qed.

Lemma mapM_defined {A B : Type} (f : A -> result B) (l : list A) :
  (forall a, In a l -> exists b, f a = Ok b) -> exists l', mapM f l = Ok l'.
Proof.
  induction l as [| a l IH]; intro H; cbn; [eexists; reflexivity|].
  destruct (H a (or_introl eq_refl)) as (b & ->).
  destruct IH as (bs & ->); [intros a' Ha'; apply H; right; exact Ha'|].
  eexists. reflexivity.
Qed.

Lemma mapM_raises {A B : Type} (f : A -> result B) (l : list A) (a : A) (e : exn) :
  In a l -> f a = Err e -> exists e', mapM f l = Err e'.
Proof.
  induction l as [| a0 l IH]; intros Hin He; [destruct Hin|]. cbn.
  destruct (f a0) as [b | e0] eqn:E0; [|eexists; reflexivity]. cbn.
  destruct Hin as [-> | Hin]; [congruence|].
  destruct (IH Hin He) as (e' & ->). eexists. reflexivity.
Qed.

Lemma combine_nth_error {A B : Type} (l : list A) (l' : list B) (k : nat) (a : A) (b : B) :
  nth_error l k = Some a -> nth_error l' k = Some b ->
  nth_error (combine l l') k = Some (a, b).
Proof.
  revert l' k. induction l as [| a0 l IH]; intros [| b0 l'] [| k] Ha Hb;
    cbn in *; try discriminate.
  - congruence.
  - apply IH; assumption.
Qed.

Lemma range_in (n i : Z) : In i (range n) -> (0 <= i < n)%Z.
Proof.
  unfold range. intro H. apply in_map_iff in H. destruct H as (k & <- & Hk).
  apply in_seq in Hk. lia.
Qed.

Lemma range_three (n : Z) :
  (3 <= n)%Z -> exists tl, range n = 0%Z :: 1%Z :: 2%Z :: tl.
Proof.
  intro H. unfold range.
  destruct (Z.to_nat n) as [| [| [| k]]] eqn:E; try lia.
  eexists. reflexivity.
Qed.

(** ** [**] as the statements know it *)

Lemma float_small_not_big (a : float) : (a <=? 2) = true -> (0x1p512 <=? a) = false.
Proof.
  rewrite !FloatAxioms.leb_spec.
  change (Prim2SF 2) with (S754_finite false 4503599627370496 (-51)).
  change (Prim2SF 0x1p512) with (S754_finite false 4503599627370496 460).
  unfold SFleb.
  destruct (Prim2SF a) as [s | s | | s m e]; cbn [SFcompare];
    try congruence; try (destruct s; congruence).
  destruct s; [reflexivity|].
  destruct (Z.compare_spec e (-51)); destruct (Z.compare_spec 460 e); try lia; congruence.
Qed.

Lemma float_pow_by_product_python :
  Binary64Run.python_float_pow Binary64Run.float_pow_by_product.
Proof.
  unfold Binary64Run.python_float_pow, Binary64Run.float_pow_by_product.
  split; [|split; [|split; [|split]]].
  - intro x. reflexivity.
  - intro i.
    destruct (i =? 0)%Z; [reflexivity|].
    destruct (i =? 1)%Z; reflexivity.
  - intro x. reflexivity.
  - intros x i Hfin Hbig Hi.
    rewrite (proj2 (Z.eqb_neq i 0)) by lia.
    rewrite (proj2 (Z.eqb_neq i 1)) by lia.
    rewrite Hfin, Hbig, (proj2 (Z.leb_le 2 i) Hi). reflexivity.
  - intros x i Hsmall _.
    destruct (i =? 0)%Z; [eexists; reflexivity|].
    destruct (i =? 1)%Z; [eexists; reflexivity|].
    rewrite (float_small_not_big _ Hsmall), andb_false_r. cbn [andb].
    destruct (x =? 1); eexists; reflexivity.
Qed.

(** ** [project_demand] on binary64 numbers *)

Lemma base_demand_binary64_valid (region : string) :
  valid_region region ->
  exists base,
    dict_get Binary64Run.BASE_DEMANDA region = Ok base
    /\ base * 1 = base /\ Binary64.truediv base base = Ok 1.
Proof.
  intros [<- | [<- | [<- | []]]]; eexists; repeat split.
Qed.

Lemma base_demand_binary64_unknown (region : string) :
  ~ valid_region region ->
  dict_get Binary64Run.BASE_DEMANDA region = Err (KeyError region).
Proof.
  intro H. unfold valid_region in H. simpl in H.
  unfold Binary64Run.BASE_DEMANDA. cbn [dict_get].
  destruct (String.eqb_spec region "Costa") as [-> | _]; [tauto|].
  destruct (String.eqb_spec region "Sierra") as [-> | _]; [tauto|].
  destruct (String.eqb_spec region "Selva") as [-> | _]; [tauto|].
  reflexivity.
Qed.

Section Projector.

Variable float_pow : float -> Z -> result float.
Variable date_range_year : Z -> result (list Z).
Hypothesis date_range_year_labels : year_end_labels date_range_year.

(** The projection succeeds as soon as every power is returned. *)
Lemma project_demand_binary64_valid (region : string) (years : Z) (g base : float) :
  dict_get Binary64Run.BASE_DEMANDA region = Ok base -> (0 <= years)%Z ->
  (forall i : Z, (0 <= i < years)%Z -> exists p, float_pow (1 + g) i = Ok p) ->
  exists demand,
    Binary64Run.project_demand float_pow date_range_year region years g
    = Ok (Binary64Run.mkFrame (map (fun i => (2025 + i)%Z) (range years)) demand)
    /\ List.length demand = Z.to_nat years
    /\ forall i : Z, (0 <= i < years)%Z ->
       exists p,
         float_pow (1 + g) i = Ok p
         /\ nth_error demand (Z.to_nat i) = Some (base * p).
Proof.
  intros Hb Hy Hpow.
  destruct (mapM_defined
              (fun i => p <- float_pow (1 + g) i ;; Ok (base * p)) (range years))
    as (demand & Hd).
  { intros i Hi. apply range_in in Hi. destruct (Hpow i Hi) as (p & ->).
    eexists. reflexivity. }
  destruct (mapM_nth_error _ _ _ Hd) as (Hlen & Hnth).
  exists demand.
  split; [|split].
  - unfold Binary64Run.project_demand.
    rewrite Hb, (date_range_year_labels years Hy). cbn [bind]. rewrite Hd. cbn [bind].
    unfold Binary64Run.DataFrame_of. rewrite length_map, Hlen, Nat.eqb_refl. reflexivity.
  - rewrite Hlen. apply range_length.
  - intros i Hi.
    destruct (Hnth _ _ (range_nth_error years i Hi)) as (b & Hf & Hk).
    destruct (float_pow (1 + g) i) as [p | e]; cbn in Hf; [|discriminate Hf].
    injection Hf as <-. exists p. split; [reflexivity | exact Hk].
Qed.

(** A power that raises makes the projection raise. *)
Lemma project_demand_binary64_raises (region : string) (years : Z) (g base : float)
    (i : Z) (e : exn) :
  dict_get Binary64Run.BASE_DEMANDA region = Ok base -> (0 <= i < years)%Z ->
  float_pow (1 + g) i = Err e ->
  exists e', Binary64Run.project_demand float_pow date_range_year region years g = Err e'.
Proof.
  intros Hb Hi He.
  unfold Binary64Run.project_demand.
  rewrite Hb, (date_range_year_labels years) by lia. cbn [bind].
  destruct (mapM_raises
              (fun i => p <- float_pow (1 + g) i ;; Ok (base * p)) (range years) i e)
    as (e' & ->).
  - apply nth_error_In with (Z.to_nat i). apply range_nth_error. exact Hi.
  - rewrite He. reflexivity.
  - eexists. reflexivity.
Qed.

(** A growth rate too large for its square makes the projection of three
    years or more raise [OverflowError]. *)
Lemma project_demand_binary64_overflow (region : string) (years : Z) (g : float) :
  Binary64Run.python_float_pow float_pow ->
  valid_region region -> (3 <= years)%Z ->
  (abs (1 + g) <? infinity) = true -> (0x1p512 <=? abs (1 + g)) = true ->
  Binary64Run.project_demand float_pow date_range_year region years g
  = Err OverflowError.
Proof.
  intros (H0 & _ & H1 & Hov & _) Hr Hy Hfin Hbig.
  destruct (base_demand_binary64_valid region Hr) as (base & Hb & _).
  destruct (range_three years Hy) as (tl & Htl).
  unfold Binary64Run.project_demand.
  rewrite Hb, (date_range_year_labels years) by lia. cbn [bind].
  rewrite Htl. cbn [mapM].
  rewrite H0, H1, (Hov (1 + g) 2%Z Hfin Hbig) by lia.
  reflexivity.
Qed.

End Projector.

(** C1, as the code has it: for a region of {Costa, Sierra, Selva}, a
    positive horizon and a binary64 growth rate, [project_demand] returns
    exactly [years] rows whenever none of the powers
    [(1 + growth_rate) ** i], [i < years], raises; row [i] then carries the
    year 2025 + i and the binary64 demand
    [base * ((1 + growth_rate) ** i)].  None raises for a horizon of at
    most 1000 and [1 + growth_rate] of magnitude at most 2, which covers
    the sliders of the dashboard.  When a power raises, so does
    [project_demand]; this is an [OverflowError] for three years or more
    and a finite [1 + growth_rate] of magnitude 2^512 or more.  A horizon
    of 1 always gives exactly one row, whose demand is the base demand. *)
Theorem project_demand_rows_binary64
    (float_pow : float -> Z -> result float)
    (date_range_year : Z -> result (list Z))
    (region : string) (years : Z) (g : float) :
  Binary64Run.python_float_pow float_pow ->
  year_end_labels date_range_year ->
  valid_region region -> (0 < years)%Z ->
  exists base,
    dict_get Binary64Run.BASE_DEMANDA region = Ok base
    /\ ((forall i : Z, (0 <= i < years)%Z -> exists p, float_pow (1 + g) i = Ok p) ->
        exists df,
          Binary64Run.project_demand float_pow date_range_year region years g = Ok df
          /\ Z.of_nat (List.length (Binary64Run.iterrows df)) = years
          /\ forall i : Z, (0 <= i < years)%Z ->
             exists p,
               float_pow (1 + g) i = Ok p
               /\ nth_error (Binary64Run.iterrows df) (Z.to_nat i)
                  = Some ((2025 + i)%Z, base * p))
    /\ ((years <= 1000)%Z -> (abs (1 + g) <=? 2) = true ->
        exists df,
          Binary64Run.project_demand float_pow date_range_year region years g = Ok df
          /\ Z.of_nat (List.length (Binary64Run.iterrows df)) = years)
    /\ (forall (i : Z) (e : exn), (0 <= i < years)%Z ->
        float_pow (1 + g) i = Err e ->
        exists e',
          Binary64Run.project_demand float_pow date_range_year region years g = Err e')
    /\ ((3 <= years)%Z ->
        (abs (1 + g) <? infinity) = true -> (0x1p512 <=? abs (1 + g)) = true ->
        Binary64Run.project_demand float_pow date_range_year region years g
        = Err OverflowError)
    /\ (years = 1%Z ->
        Binary64Run.project_demand float_pow date_range_year region years g
        = Ok (Binary64Run.mkFrame [2025%Z] [base])).
Proof.
  intros Hpow Hdr Hr Hy.
  destruct (base_demand_binary64_valid region Hr) as (base & Hb & Hone & _).
  exists base. split; [exact Hb|].
  assert (Rows : (forall i : Z, (0 <= i < years)%Z ->
                    exists p, float_pow (1 + g) i = Ok p) ->
            exists df,
              Binary64Run.project_demand float_pow date_range_year region years g = Ok df
              /\ Z.of_nat (List.length (Binary64Run.iterrows df)) = years
              /\ forall i : Z, (0 <= i < years)%Z ->
                 exists p,
                   float_pow (1 + g) i = Ok p
                   /\ nth_error (Binary64Run.iterrows df) (Z.to_nat i)
                      = Some ((2025 + i)%Z, base * p)).
  { intro Hall.
    destruct (project_demand_binary64_valid float_pow _ Hdr region years g base Hb)
      as (demand & Hrun & Hlen & Hnth); [lia | exact Hall |].
    eexists. split; [exact Hrun|].
    unfold Binary64Run.iterrows. cbn [Binary64Run.Anio Binary64Run.Demanda_MWh].
    split.
    + rewrite length_combine, length_map, range_length, Hlen. lia.
    + intros i Hi. destruct (Hnth i Hi) as (p & Hp & Hk).
      exists p. split; [exact Hp|].
      apply combine_nth_error; [|exact Hk].
      rewrite nth_error_map, (range_nth_error years i Hi). reflexivity. }
  split; [exact Rows|].
  split; [|split; [|split]].
  - intros Hy' Hsmall. destruct Hpow as (_ & _ & _ & _ & Hin).
    destruct Rows as (df & Hrun & Hlen & _).
    { intros i Hi. apply Hin; [exact Hsmall | lia]. }
    exists df. split; assumption.
  - intros i e Hi He.
    exact (project_demand_binary64_raises float_pow _ Hdr region years g base i e Hb Hi He).
  - intros Hy3 Hfin Hbig.
    exact (project_demand_binary64_overflow float_pow _ Hdr region years g
             Hpow Hr Hy3 Hfin Hbig).
  - intros ->. destruct Hpow as (H0 & _).
    unfold Binary64Run.project_demand.
    rewrite Hb, (Hdr 1%Z) by lia. cbn [bind].
    change (range 1) with [0%Z]. cbn [mapM map].
    rewrite H0. cbn [bind]. rewrite Hone. reflexivity.
Qed.

Lemma project_demand_rows_binary64_selva :
  Binary64Run.python_float_pow Binary64Run.float_pow_by_product
  /\ year_end_labels year_ends_from_2025
  /\ valid_region "Selva" /\ (0 < 1)%Z
  /\ exists base,
       dict_get Binary64Run.BASE_DEMANDA "Selva" = Ok base
       /\ ((forall i : Z, (0 <= i < 1)%Z ->
            exists p, Binary64Run.float_pow_by_product (1 + 0.04) i = Ok p) ->
           exists df,
             Binary64Run.project_demand Binary64Run.float_pow_by_product
               year_ends_from_2025 "Selva" 1 0.04 = Ok df
             /\ Z.of_nat (List.length (Binary64Run.iterrows df)) = 1%Z
             /\ forall i : Z, (0 <= i < 1)%Z ->
                exists p,
                  Binary64Run.float_pow_by_product (1 + 0.04) i = Ok p
                  /\ nth_error (Binary64Run.iterrows df) (Z.to_nat i)
                     = Some ((2025 + i)%Z, base * p))
       /\ ((1 <= 1000)%Z -> (abs (1 + 0.04) <=? 2) = true ->
           exists df,
             Binary64Run.project_demand Binary64Run.float_pow_by_product
               year_ends_from_2025 "Selva" 1 0.04 = Ok df
             /\ Z.of_nat (List.length (Binary64Run.iterrows df)) = 1%Z)
       /\ (forall (i : Z) (e : exn), (0 <= i < 1)%Z ->
           Binary64Run.float_pow_by_product (1 + 0.04) i = Err e ->
           exists e',
             Binary64Run.project_demand Binary64Run.float_pow_by_product
               year_ends_from_2025 "Selva" 1 0.04 = Err e')
       /\ ((3 <= 1)%Z ->
           (abs (1 + 0.04) <? infinity) = true -> (0x1p512 <=? abs (1 + 0.04)) = true ->
           Binary64Run.project_demand Binary64Run.float_pow_by_product
             year_ends_from_2025 "Selva" 1 0.04 = Err OverflowError)
       /\ (1%Z = 1%Z ->
           Binary64Run.project_demand Binary64Run.float_pow_by_product
             year_ends_from_2025 "Selva" 1 0.04
           = Ok (Binary64Run.mkFrame [2025%Z] [base])).
Proof.
  assert (Hr : valid_region "Selva") by (unfold valid_region; simpl; tauto).
  assert (Hy : (0 < 1)%Z) by lia.
  split; [exact float_pow_by_product_python|].
  split; [exact year_ends_from_2025_labels|].
  repeat (split; [assumption|]).
  exact (project_demand_rows_binary64 Binary64Run.float_pow_by_product
           year_ends_from_2025 "Selva" 1 0.04
           float_pow_by_product_python year_ends_from_2025_labels Hr Hy).
Defined.

(** C1 fails as stated: for Costa, three years and a growth rate of 1e200,
    which is >= -1, no row is returned; the square of 1 + 1e200 is out of
    range and [project_demand] raises [OverflowError]. *)
Lemma project_demand_overflows_binary64 :
  Binary64Run.python_float_pow Binary64Run.float_pow_by_product
  /\ year_end_labels year_ends_from_2025
  /\ valid_region "Costa" /\ (0 < 3)%Z /\ (-1 <=? 1e200) = true
  /\ Binary64Run.project_demand Binary64Run.float_pow_by_product
       year_ends_from_2025 "Costa" 3 1e200
     = Err OverflowError.
Proof.
  assert (Hr : valid_region "Costa") by (unfold valid_region; simpl; tauto).
  split; [exact float_pow_by_product_python|].
  split; [exact year_ends_from_2025_labels|].
  split; [exact Hr|]. split; [lia|]. split; [reflexivity|].
  apply project_demand_binary64_overflow;
    [exact year_ends_from_2025_labels | exact float_pow_by_product_python
    | exact Hr | lia | reflexivity | reflexivity].
Qed.

(** ** Consecutive demands *)





(** ** [simulate_mix] never raises on a valid region *)

Lemma capacities_binary64_unknown (region : string) :
  ~ valid_region region ->
  dict_get Binary64.CAPACITIES region = Err (KeyError region).
Proof.
  intro H. unfold valid_region in H. simpl in H.
  unfold Binary64.CAPACITIES. cbn [dict_get].
  destruct (String.eqb_spec region "Costa") as [-> | _]; [tauto|].
  destruct (String.eqb_spec region "Sierra") as [-> | _]; [tauto|].
  destruct (String.eqb_spec region "Selva") as [-> | _]; [tauto|].
  reflexivity.
Qed.

(** X17: on binary64 numbers, [simulate_mix] returns a result on a region
    of {Costa, Sierra, Selva} for every demand and factor, a NaN, an
    infinity or a negative zero included: the division is only reached with
    a demand > 0, which is not zero, and the marginal cost is [cost / demand]
    then and 0 otherwise; the deficit returned is >= 0, never negative and
    never a NaN.  On any other region it raises the [KeyError] of the
    capacity lookup. *)
Theorem simulate_mix_never_raises_binary64 (region : string) (d f : float) :
  (valid_region region ->
   exists res,
     Binary64.simulate_mix region d f = Ok res
     /\ Binary64.cmp res = (if 0 <? d then Binary64.cost res / d else 0)
     /\ (0 <=? Binary64.deficit res) = true)
  /\ (~ valid_region region ->
      Binary64.simulate_mix region d f = Err (KeyError region)).
Proof.
  split; intro Hr.
  - destruct (simulate_mix_binary64_valid region Hr) as (ch & cs & ct & _ & _ & Hs).
    eexists. split; [apply Hs|]. split; [reflexivity|].
    apply py_max_zero_nonneg.
  - unfold Binary64.simulate_mix.
    rewrite (capacities_binary64_unknown region Hr). reflexivity.
Qed.

Lemma simulate_mix_never_raises_binary64_nan :
  valid_region "Sierra"
  /\ (valid_region "Sierra" ->
      exists res,
        Binary64.simulate_mix "Sierra" nan (-0) = Ok res
        /\ Binary64.cmp res = (if 0 <? nan then Binary64.cost res / nan else 0)
        /\ (0 <=? Binary64.deficit res) = true)
  /\ (~ valid_region "Sierra" ->
      Binary64.simulate_mix "Sierra" nan (-0) = Err (KeyError "Sierra")).
Proof.
  split; [unfold valid_region; simpl; tauto|].
  exact (simulate_mix_never_raises_binary64 "Sierra" nan (-0)).
Defined.

(** ** The run of the script on binary64 numbers *)

Lemma climate_factor_binary64_valid (scenario : string) :
  valid_scenario scenario ->
  exists factor, dict_get Binary64Run.climate_factors scenario = Ok factor.
Proof.
  intros [<- | [<- | [<- | []]]]; eexists; reflexivity.
Qed.

Lemma climate_factor_binary64_unknown (scenario : string) :
  ~ valid_scenario scenario ->
  dict_get Binary64Run.climate_factors scenario = Err (KeyError scenario).
Proof.
  intro H. unfold valid_scenario in H. simpl in H.
  unfold Binary64Run.climate_factors. cbn [dict_get].
  destruct (String.eqb_spec scenario "Optimista") as [-> | _]; [tauto|].
  destruct (String.eqb_spec scenario "Normal") as [-> | _]; [tauto|].
  destruct (String.eqb_spec scenario "Crítico") as [-> | _]; [tauto|].
  reflexivity.
Qed.

Lemma result_row_binary64_valid (region : string) (y : Z) (d f : float) :
  valid_region region ->
  exists res h s t,
    Binary64.simulate_mix region d f = Ok res
    /\ dict_get (Binary64.gen res) "hydro" = Ok h
    /\ dict_get (Binary64.gen res) "solar" = Ok s
    /\ dict_get (Binary64.gen res) "thermal" = Ok t
    /\ Binary64Run.result_row region (y, d, f)
       = Ok (Binary64Run.mkRow y d h s t (Binary64.deficit res) (Binary64.emissions res)
               (Binary64.cost res) (Binary64.cmp res)).
Proof.
  intro Hr.
  destruct (simulate_mix_binary64_valid region Hr) as (ch & cs & ct & _ & _ & Hs).
  eexists. do 3 eexists.
  split; [apply Hs|]. do 3 (split; [reflexivity|]).
  unfold Binary64Run.result_row. rewrite Hs. reflexivity.
Qed.

(** X11: on binary64 numbers, for a valid region, a known scenario and a
    horizon >= 0, whenever none of the powers of [project_demand] raises,
    the run of the script succeeds with exactly one result row per year;
    row [i] carries the year 2025 + i, the projected demand
    [base * ((1 + g) ** i)], and the generation, deficit, emissions, cost
    and marginal cost that [simulate_mix] returns for that demand under the
    factor of the scenario. *)
Theorem df_results_rows_binary64
    (float_pow : float -> Z -> result float)
    (date_range_year : Z -> result (list Z))
    (region scenario : string) (years : Z) (g : float) :
  year_end_labels date_range_year ->
  valid_region region -> valid_scenario scenario -> (0 <= years)%Z ->
  (forall i : Z, (0 <= i < years)%Z -> exists p, float_pow (1 + g) i = Ok p) ->
  exists base factor rs,
    dict_get Binary64Run.BASE_DEMANDA region = Ok base
    /\ dict_get Binary64Run.climate_factors scenario = Ok factor
    /\ Binary64Run.df_results float_pow date_range_year region scenario years g = Ok rs
    /\ Z.of_nat (List.length rs) = years
    /\ forall i : Z, (0 <= i < years)%Z ->
       exists p r res h s t,
         float_pow (1 + g) i = Ok p
         /\ nth_error rs (Z.to_nat i) = Some r
         /\ Binary64Run.row_Anio r = (2025 + i)%Z
         /\ Binary64Run.row_Demanda_MWh r = base * p
         /\ Binary64.simulate_mix region (base * p) factor = Ok res
         /\ dict_get (Binary64.gen res) "hydro" = Ok h
         /\ dict_get (Binary64.gen res) "solar" = Ok s
         /\ dict_get (Binary64.gen res) "thermal" = Ok t
         /\ Binary64Run.Hidro_MWh r = h
         /\ Binary64Run.Solar_MWh r = s
         /\ Binary64Run.Termica_MWh r = t
         /\ Binary64Run.Deficit r = Binary64.deficit res
         /\ Binary64Run.Emisiones_tCO2e r = Binary64.emissions res
         /\ Binary64Run.Costo_USD r = Binary64.cost res
         /\ Binary64Run.CMP_USD_MWh r = Binary64.cmp res.
Proof.
  intros Hdr Hr Hs Hy Hall.
  destruct (base_demand_binary64_valid region Hr) as (base & Hb & _).
  destruct (climate_factor_binary64_valid scenario Hs) as (factor & Hf).
  destruct (project_demand_binary64_valid float_pow _ Hdr region years g base Hb Hy Hall)
    as (demand & Hrun & Hlen & Hnth).
  exists base, factor.
  set (rows := map (fun row => (row, factor))
                   (combine (map (fun i => (2025 + i)%Z) (range years)) demand)).
  destruct (mapM_defined (Binary64Run.result_row region) rows) as (rs & Hrs).
  { intros [[y d] f'] _.
    destruct (result_row_binary64_valid region y d f' Hr) as (res & h & s & t & _ & _ & _ & _ & E).
    eexists. exact E. }
  destruct (mapM_nth_error _ _ _ Hrs) as (Hlrs & Hnrs).
  exists rs. do 2 (split; [assumption|]).
  split.
  { unfold Binary64Run.df_results. rewrite Hrun. cbn [bind].
    unfold Binary64Run.apply_climate_scenario. rewrite Hf. cbn [bind].
    unfold Binary64Run.climate_rows.
    cbn [Binary64Run.projection Binary64Run.climate_factor].
    rewrite combine_repeat. exact Hrs. }
  split.
  { rewrite Hlrs. unfold rows.
    rewrite length_map, length_combine, length_map, range_length, Hlen. lia. }
  intros i Hi.
  destruct (Hnth i Hi) as (p & Hp & Hk).
  assert (Hrow : nth_error rows (Z.to_nat i) = Some ((2025 + i)%Z, base * p, factor)).
  { unfold rows. rewrite nth_error_map.
    rewrite (combine_nth_error _ _ _ (2025 + i)%Z (base * p)); [reflexivity | | exact Hk].
    rewrite nth_error_map, (range_nth_error years i Hi). reflexivity. }
  destruct (Hnrs _ _ Hrow) as (r & Er & Hr').
  destruct (result_row_binary64_valid region (2025 + i)%Z (base * p) factor Hr)
    as (res & h & s & t & Hsim & Hh & Hso & Ht & E).
  rewrite E in Er. injection Er as <-.
  exists p. eexists. exists res, h, s, t.
  split; [exact Hp|]. split; [exact Hr'|].
  cbn. repeat split; assumption.
Qed.

Lemma df_results_rows_binary64_selva :
  year_end_labels year_ends_from_2025
  /\ valid_region "Selva" /\ valid_scenario "Crítico" /\ (0 <= 2)%Z
  /\ (forall i : Z, (0 <= i < 2)%Z ->
      exists p, Binary64Run.float_pow_by_product (1 + 0.04) i = Ok p)
  /\ exists base factor rs,
       dict_get Binary64Run.BASE_DEMANDA "Selva" = Ok base
       /\ dict_get Binary64Run.climate_factors "Crítico" = Ok factor
       /\ Binary64Run.df_results Binary64Run.float_pow_by_product year_ends_from_2025
            "Selva" "Crítico" 2 0.04 = Ok rs
       /\ Z.of_nat (List.length rs) = 2%Z
       /\ forall i : Z, (0 <= i < 2)%Z ->
          exists p r res h s t,
            Binary64Run.float_pow_by_product (1 + 0.04) i = Ok p
            /\ nth_error rs (Z.to_nat i) = Some r
            /\ Binary64Run.row_Anio r = (2025 + i)%Z
            /\ Binary64Run.row_Demanda_MWh r = base * p
            /\ Binary64.simulate_mix "Selva" (base * p) factor = Ok res
            /\ dict_get (Binary64.gen res) "hydro" = Ok h
            /\ dict_get (Binary64.gen res) "solar" = Ok s
            /\ dict_get (Binary64.gen res) "thermal" = Ok t
            /\ Binary64Run.Hidro_MWh r = h
            /\ Binary64Run.Solar_MWh r = s
            /\ Binary64Run.Termica_MWh r = t
            /\ Binary64Run.Deficit r = Binary64.deficit res
            /\ Binary64Run.Emisiones_tCO2e r = Binary64.emissions res
            /\ Binary64Run.Costo_USD r = Binary64.cost res
            /\ Binary64Run.CMP_USD_MWh r = Binary64.cmp res.
Proof.
  assert (Hr : valid_region "Selva") by (unfold valid_region; simpl; tauto).
  assert (Hs : valid_scenario "Crítico") by (unfold valid_scenario; simpl; tauto).
  assert (Hy : (0 <= 2)%Z) by lia.
  assert (Hall : forall i : Z, (0 <= i < 2)%Z ->
            exists p, Binary64Run.float_pow_by_product (1 + 0.04) i = Ok p).
  { intros i Hi. assert (E : i = 0%Z \/ i = 1%Z) by lia.
    destruct E as [-> | ->]; eexists; reflexivity. }
  split; [exact year_ends_from_2025_labels|].
  repeat (split; [assumption|]).
  exact (df_results_rows_binary64 Binary64Run.float_pow_by_product year_ends_from_2025
           "Selva" "Crítico" 2 0.04 year_ends_from_2025_labels Hr Hs Hy Hall).
Defined.

(** X13: on binary64 numbers, the run of the script fails on an unknown
    region with the [KeyError] of the base-demand lookup, whatever the
    scenario, horizon and growth rate.  On a valid region an error of
    [project_demand] is the error of the run, whatever the scenario: an
    [OverflowError] for three years or more and a finite [1 + g] of
    magnitude 2^512 or more.  When the projection succeeds, an unknown
    scenario fails with the [KeyError] of the factor lookup. *)
Theorem df_results_errors_binary64
    (float_pow : float -> Z -> result float)
    (date_range_year : Z -> result (list Z))
    (region scenario : string) (years : Z) (g : float) :
  (~ valid_region region ->
   Binary64Run.df_results float_pow date_range_year region scenario years g
   = Err (KeyError region))
  /\ (forall e,
        Binary64Run.project_demand float_pow date_range_year region years g = Err e ->
        Binary64Run.df_results float_pow date_range_year region scenario years g = Err e)
  /\ (Binary64Run.python_float_pow float_pow -> year_end_labels date_range_year ->
      valid_region region -> (3 <= years)%Z ->
      (abs (1 + g) <? infinity) = true -> (0x1p512 <=? abs (1 + g)) = true ->
      Binary64Run.df_results float_pow date_range_year region scenario years g
      = Err OverflowError)
  /\ (forall df,
        Binary64Run.project_demand float_pow date_range_year region years g = Ok df ->
        ~ valid_scenario scenario ->
        Binary64Run.df_results float_pow date_range_year region scenario years g
        = Err (KeyError scenario)).
Proof.
  assert (Prop_err : forall e,
            Binary64Run.project_demand float_pow date_range_year region years g = Err e ->
            Binary64Run.df_results float_pow date_range_year region scenario years g
            = Err e).
  { intros e E. unfold Binary64Run.df_results. rewrite E. reflexivity. }
  split; [|split; [exact Prop_err | split]].
  - intro Hr. apply Prop_err. unfold Binary64Run.project_demand.
    rewrite (base_demand_binary64_unknown region Hr). reflexivity.
  - intros Hpow Hdr Hr Hy Hfin Hbig. apply Prop_err.
    exact (project_demand_binary64_overflow float_pow _ Hdr region years g
             Hpow Hr Hy Hfin Hbig).
  - intros df E Hs. unfold Binary64Run.df_results. rewrite E. cbn [bind].
    unfold Binary64Run.apply_climate_scenario.
    rewrite (climate_factor_binary64_unknown scenario Hs). reflexivity.
Qed.

Lemma df_results_errors_binary64_costa :
  Binary64Run.python_float_pow Binary64Run.float_pow_by_product
  /\ year_end_labels year_ends_from_2025
  /\ valid_region "Costa" /\ (3 <= 5)%Z
  /\ (abs (1 + 1e200) <? infinity) = true /\ (0x1p512 <=? abs (1 + 1e200)) = true
  /\ (~ valid_region "Costa" ->
      Binary64Run.df_results Binary64Run.float_pow_by_product year_ends_from_2025
        "Costa" "Seco" 5 1e200 = Err (KeyError "Costa"))
  /\ (forall e,
        Binary64Run.project_demand Binary64Run.float_pow_by_product year_ends_from_2025
          "Costa" 5 1e200 = Err e ->
        Binary64Run.df_results Binary64Run.float_pow_by_product year_ends_from_2025
          "Costa" "Seco" 5 1e200 = Err e)
  /\ (Binary64Run.python_float_pow Binary64Run.float_pow_by_product ->
      year_end_labels year_ends_from_2025 ->
      valid_region "Costa" -> (3 <= 5)%Z ->
      (abs (1 + 1e200) <? infinity) = true -> (0x1p512 <=? abs (1 + 1e200)) = true ->
      Binary64Run.df_results Binary64Run.float_pow_by_product year_ends_from_2025
        "Costa" "Seco" 5 1e200 = Err OverflowError)
  /\ (forall df,
        Binary64Run.project_demand Binary64Run.float_pow_by_product year_ends_from_2025
          "Costa" 5 1e200 = Ok df ->
        ~ valid_scenario "Seco" ->
        Binary64Run.df_results Binary64Run.float_pow_by_product year_ends_from_2025
          "Costa" "Seco" 5 1e200 = Err (KeyError "Seco")).
Proof.
  assert (Hr : valid_region "Costa") by (unfold valid_region; simpl; tauto).
  split; [exact float_pow_by_product_python|].
  split; [exact year_ends_from_2025_labels|].
  split; [exact Hr|]. split; [lia|]. split; [reflexivity|]. split; [reflexivity|].
  exact (df_results_errors_binary64 Binary64Run.float_pow_by_product year_ends_from_2025
           "Costa" "Seco" 5 1e200).
Defined.

End Binary64Facts.

(** * Order properties of the mix *)

(** X2: on a valid region, for every demand and factor, whatever their
    sign, the thermal generation returned by [simulate_mix] never exceeds
    the thermal capacity and the deficit is never negative. *)
Theorem simulate_mix_thermal_ceiling (region : string) (d f : Q) :
  valid_region region ->
  exists res h s t ct,
    simulates region d f res h s t
    /\ capacity region "thermal" = Ok ct
    /\ t <= ct
    /\ 0 <= deficit res.
Proof.
  intro Hr.
  destruct (simulates_valid region d f Hr)
    as (ch & cs & ct & _ & _ & Hct & _ & _ & _ & Hs).
  do 4 eexists. exists ct. split; [exact Hs|]. split; [exact Hct|].
  split; [apply py_min_le_r|].
  cbn [deficit mix_of_caps]. rewrite py_max_Qmax. apply Q.le_max_l.
Qed.

Lemma simulate_mix_thermal_ceiling_sierra :
  valid_region "Sierra"
  /\ exists res h s t ct,
       simulates "Sierra" 30000 0.8 res h s t
       /\ capacity "Sierra" "thermal" = Ok ct
       /\ t <= ct
       /\ 0 <= deficit res.
Proof.
  assert (Hr : valid_region "Sierra") by (unfold valid_region; simpl; tauto).
  split; [exact Hr|].
  exact (simulate_mix_thermal_ceiling "Sierra" 30000 0.8 Hr).
Defined.

(** X7: on a valid region with demand >= 0, raising the climate factor
    never lowers the hydro or the solar generation returned by
    [simulate_mix] and never raises the thermal generation. *)
Theorem simulate_mix_monotone_in_factor (region : string) (d f1 f2 : Q) :
  valid_region region -> 0 <= d -> f1 <= f2 ->
  exists res1 h1 s1 t1 res2 h2 s2 t2,
    simulates region d f1 res1 h1 s1 t1
    /\ simulates region d f2 res2 h2 s2 t2
    /\ h1 <= h2 /\ s1 <= s2 /\ t2 <= t1.
Proof.
  intros Hr Hd Hf.
  destruct (simulates_valid region d f1 Hr)
    as (ch & cs & ct & Hh & Hs & Ht & _ & _ & _ & Hsim1).
  destruct (simulates_valid region d f2 Hr)
    as (ch' & cs' & ct' & Hh' & Hs' & Ht' & _ & _ & _ & Hsim2).
  rewrite Hh in Hh'. injection Hh' as <-.
  rewrite Hs in Hs'. injection Hs' as <-.
  rewrite Ht in Ht'. injection Ht' as <-.
  do 8 eexists. split; [exact Hsim1|]. split; [exact Hsim2|].
  assert (Ph : d * 0.5 * f1 <= d * 0.5 * f2).
  { apply demand_times_factor_le; [lra | exact Hf]. }
  assert (Ps : d * 0.2 * f1 <= d * 0.2 * f2).
  { apply demand_times_factor_le; [lra | exact Hf]. }
  pose proof (py_min_mono_l _ _ ch Ph) as Mh.
  pose proof (py_min_mono_l _ _ cs Ps) as Ms.
  do 2 (split; [assumption|]).
  apply py_min_mono_l. lra.
Qed.

Lemma simulate_mix_monotone_in_factor_sierra :
  valid_region "Sierra" /\ 0 <= 30000 /\ 0.8 <= 1.1
  /\ exists res1 h1 s1 t1 res2 h2 s2 t2,
       simulates "Sierra" 30000 0.8 res1 h1 s1 t1
       /\ simulates "Sierra" 30000 1.1 res2 h2 s2 t2
       /\ h1 <= h2 /\ s1 <= s2 /\ t2 <= t1.
Proof.
  assert (Hr : valid_region "Sierra") by (unfold valid_region; simpl; tauto).
  assert (Hd : 0 <= 30000) by discriminate.
  assert (Hf : 0.8 <= 1.1) by discriminate.
  repeat (split; [assumption|]).
  exact (simulate_mix_monotone_in_factor "Sierra" 30000 0.8 1.1 Hr Hd Hf).
Defined.
